(** * Jesture: the hand-landmark detector wrapper

    A shallow embedding of [jesture/detection/landmark_detector.py] and the
    properties of its [LandmarkDetector] class: the constructor, which hands
    its arguments to the MediaPipe [Hands] engine, and the two accessors
    [fetch_landmarks] and [fetch_landmark_position], which reshape the
    engine's output into a Python [dict] from landmark ids to [(x, y)] pairs.

    Python objects live in a store ([World]); a Python [float] is an IEEE 754
    binary64 number, here Rocq's primitive [float]; a Python [int] is a [Z];
    a Python [dict] is an insertion-ordered association list without repeated
    keys. *)

From Stdlib Require Import ZArith Floats.PrimFloat.
From stdpp Require Import base option list list_numbers gmap.

#[local] Set Warnings "-clear-no-such-hyp".
Local Open Scope Z_scope.

(** ** Python built-ins used by the module *)

(** [dict]: CPython dictionaries iterate in insertion order, and storing under
    a key that is already present replaces the value where it stands. *)
Module PyDict.
Section dict.
Context {V : Type}.

Definition dict : Type := list (Z * V).

(** [{}] *)
Definition empty : dict := [].

(** [d[k] = v] *)
Fixpoint setitem (k : Z) (v : V) (d : dict) : dict :=
  match d with
  | [] => [(k, v)]
  | (k', v') :: d' =>
      if decide (k' = k) then (k, v) :: d' else (k', v') :: setitem k v d'
  end.

(** [d.get(k, None)] *)
Fixpoint get (k : Z) (d : dict) : option V :=
  match d with
  | [] => None
  | (k', v') :: d' => if decide (k' = k) then Some v' else get k d'
  end.

(** [list(d.keys())], in iteration order *)
Definition keys (d : dict) : list Z := d.*1.

(** [list(d.values())], in iteration order *)
Definition values (d : dict) : list V := d.*2.

(** [len(d)] *)
Definition len (d : dict) : Z := Z.of_nat (length d).
End dict.
Global Arguments dict : clear implicits.
End PyDict.

(** [enumerate(iterable, start)]: pairs each element with a counter that
    starts at [start] and grows by one. *)
Fixpoint enumerate_from {A : Type} (start : Z) (l : list A) : list (Z * A) :=
  match l with
  | [] => []
  | a :: l' => (start, a) :: enumerate_from (start + 1) l'
  end.

(** [enumerate(iterable)] *)
Definition enumerate {A : Type} (l : list A) : list (Z * A) :=
  enumerate_from 0 l.

(** Truth value of the engine's [multi_hand_landmarks]: [None] and the empty
    list are both false. *)
Definition truthy {A : Type} (o : option (list A)) : bool :=
  match o with
  | None => false
  | Some [] => false
  | Some (_ :: _) => true
  end.

(** ** The engine's data ([mediapipe.framework.formats.landmark_pb2]) *)

Module landmark_pb2.
(** One landmark of a detected hand. The wrapper reads [x] and [y] only. *)
Record NormalizedLandmark : Type := mkNormalizedLandmark {
  x : float;
  y : float;
  z : float;
  visibility : float;
  presence : float
}.

(** The landmarks of one hand, in the engine's order. *)
Record NormalizedLandmarkList : Type := mkNormalizedLandmarkList {
  landmark : list NormalizedLandmark
}.
End landmark_pb2.
Import landmark_pb2.

(** What [Hands.process] returns; [multi_hand_landmarks] is [None] when the
    engine found no hand. The wrapper reads no other field of the tuple. *)
Record ProcessResults : Type := mkProcessResults {
  multi_hand_landmarks : option (list NormalizedLandmarkList)
}.

(** A landmark position as the wrapper stores it: the tuple [(x, y)]. *)
Abbreviation LandmarkPosition := (float * float)%type.

(** ** The loops of [fetch_landmarks] *)

(** Lines 83-86: [for landmark_id, landmark in enumerate(landmark_container):
    landmark_map[landmark_id] = (landmark.x, landmark.y)] *)
Definition for_landmark (landmark_container : list NormalizedLandmark)
    (landmark_map : PyDict.dict LandmarkPosition) : PyDict.dict LandmarkPosition :=
  foldl (λ landmark_map '(landmark_id, landmark),
           PyDict.setitem landmark_id (x landmark, y landmark) landmark_map)
        landmark_map (enumerate landmark_container).

(** Lines 76-86: [for hand_landmarks in multi_hand_landmarks: ...] *)
Definition for_hand_landmarks (multi_hand_landmarks : list NormalizedLandmarkList)
    (landmark_map : PyDict.dict LandmarkPosition) : PyDict.dict LandmarkPosition :=
  foldl (λ landmark_map hand_landmarks,
           let landmark_container := landmark hand_landmarks in
           for_landmark landmark_container landmark_map)
        landmark_map multi_hand_landmarks.

(** Lines 67-88: from the engine's results to the returned [landmark_map]. *)
Definition build_landmark_map (process_results : ProcessResults)
    : PyDict.dict LandmarkPosition :=
  let multi_hand_landmarks := multi_hand_landmarks process_results in
  let landmark_map := PyDict.empty in
  if negb (truthy multi_hand_landmarks) then landmark_map
  else
    match multi_hand_landmarks with
    | Some hands => for_hand_landmarks hands landmark_map
    | None => landmark_map (* not reached: [None] is false *)
    end.

(** ** The engine and the object store *)

(** The MediaPipe engine, seen from the wrapper: the constructor
    [mediapipe.solutions.hands.Hands(max_num_hands, min_detection_confidence,
    min_tracking_confidence)], which yields a fresh engine or raises, and the
    method [process], which reads a frame, may change the engine's own state,
    and yields results or raises. *)
Class HandsEngine (Frame EngineState EngineError : Type) : Type := {
  Hands : Z → float → float → EngineError + EngineState;
  process : EngineState → Frame → (EngineError + ProcessResults) * EngineState
}.

(** Object references. *)
Definition addr : Type := positive.

(** The attributes of a [LandmarkDetector] object. *)
Record LandmarkDetector : Type := mkLandmarkDetector {
  hand_processor : addr
}.

(** How a call ends: it returns, it raises an exception of the engine, or it
    went through a reference to no object ([Fault], which no Python program
    reaches). *)
Inductive outcome (E A : Type) : Type :=
  | Returns (a : A)
  | Raises (e : E)
  | Fault.
Global Arguments Returns {E A} a.
Global Arguments Raises {E A} e.
Global Arguments Fault {E A}.

Section Detector.
Context {Frame EngineState EngineError : Type}.
Context `{!HandsEngine Frame EngineState EngineError}.

(** The store: the caller's frames (numpy arrays), the wrapper's detector
    objects, and the engine objects of the library. *)
Record World : Type := mkWorld {
  frames : gmap addr Frame;
  detectors : gmap addr LandmarkDetector;
  engines : gmap addr EngineState
}.

Definition M (A : Type) : Type := World → outcome EngineError A * World.

Definition ret {A : Type} (a : A) : M A := λ w, (Returns a, w).

Definition bind {A B : Type} (m : M A) (k : A → M B) : M B :=
  λ w, match m w with
       | (Returns a, w') => k a w'
       | (Raises e, w') => (Raises e, w')
       | (Fault, w') => (Fault, w')
       end.

Local Notation "v <- m ;; k" := (bind m (λ v, k))
  (at level 100, m at next level, right associativity).

(** [self.hand_processor] *)
Definition getattr_hand_processor (self : addr) : M addr :=
  λ w, match detectors w !! self with
       | Some d => (Returns (hand_processor d), w)
       | None => (Fault, w)
       end.

(** [self.hand_processor = engine] *)
Definition setattr_hand_processor (self engine : addr) : M unit :=
  λ w, (Returns tt,
        mkWorld (frames w)
                (<[self := mkLandmarkDetector engine]> (detectors w))
                (engines w)).

(** [mediapipe.solutions.hands.Hands(...)]: a new engine object. *)
Definition call_Hands (max_num_hands : Z)
    (min_detection_confidence min_tracking_confidence : float) : M addr :=
  λ w, match Hands max_num_hands min_detection_confidence
                   min_tracking_confidence with
       | inl e => (Raises e, w)
       | inr st =>
           let engine := fresh (dom (engines w)) in
           (Returns engine,
            mkWorld (frames w) (detectors w) (<[engine := st]> (engines w)))
       end.

(** [engine.process(rgb_frame)] *)
Definition call_process (engine rgb_frame : addr) : M ProcessResults :=
  λ w, match engines w !! engine, frames w !! rgb_frame with
       | Some st, Some fr =>
           let '(r, st') := process st fr in
           (match r with inl e => Raises e | inr res => Returns res end,
            mkWorld (frames w) (detectors w) (<[engine := st']> (engines w)))
       | _, _ => (Fault, w)
       end.

(** ** The class [LandmarkDetector] *)

(** Lines 27-50. *)
Definition __init__ (self : addr) (max_num_hands : Z)
    (min_detection_confidence min_tracking_confidence : float) : M unit :=
  engine <- call_Hands max_num_hands min_detection_confidence
                       min_tracking_confidence ;;
  setattr_hand_processor self engine.

(** [LandmarkDetector(...)]: a new object, initialised by [__init__]. *)
Definition new_LandmarkDetector (max_num_hands : Z)
    (min_detection_confidence min_tracking_confidence : float) : M addr :=
  λ w, let self := fresh (dom (detectors w)) in
       (_ <- __init__ self max_num_hands min_detection_confidence
                      min_tracking_confidence ;;
        ret self) w.

(** Lines 52-88. *)
Definition fetch_landmarks (self rgb_frame : addr)
    : M (PyDict.dict LandmarkPosition) :=
  engine <- getattr_hand_processor self ;;
  process_results <- call_process engine rgb_frame ;;
  ret (build_landmark_map process_results).

(** Lines 90-108. *)
Definition fetch_landmark_position (self rgb_frame : addr) (landmark_id : Z)
    : M (option LandmarkPosition) :=
  landmark_position_map <- fetch_landmarks self rgb_frame ;;
  ret (PyDict.get landmark_id landmark_position_map).
End Detector.
Global Arguments World : clear implicits.
Global Arguments M : clear implicits.

(** ** Notions the properties are stated with *)

(** The position the wrapper stores for a landmark. *)
Definition position_of (lm : NormalizedLandmark) : LandmarkPosition :=
  (x lm, y lm).

(** The landmark of a hand that [enumerate] pairs with the id [k]. *)
Definition landmark_with_id (h : NormalizedLandmarkList) (k : Z)
    : option NormalizedLandmark :=
  if decide (0 ≤ k) then landmark h !! Z.to_nat k else None.

(** The landmark with id [k] of the last hand, in the engine's order, that
    has one. *)
Fixpoint last_landmark_with_id (k : Z) (hands : list NormalizedLandmarkList)
    : option NormalizedLandmark :=
  match hands with
  | [] => None
  | h :: hands' =>
      match last_landmark_with_id k hands' with
      | Some lm => Some lm
      | None => landmark_with_id h k
      end
  end.

(** The ids of a hand, in the order in which the inner loop meets them. *)
Definition hand_ids (h : NormalizedLandmarkList) : list Z :=
  (enumerate (landmark h)).*1.

(** A list of ids with every id kept at its first occurrence only. *)
Fixpoint first_occurrences (l : list Z) : list Z :=
  match l with
  | [] => []
  | k :: l' => k :: filter (λ k', k' ≠ k) (first_occurrences l')
  end.

(** The number of landmarks of a hand, and the largest over the hands. *)
Definition num_landmarks (h : NormalizedLandmarkList) : Z :=
  Z.of_nat (length (landmark h)).

Definition max_num_landmarks (hands : list NormalizedLandmarkList) : Z :=
  Z.of_nat (max_list_with (λ h, length (landmark h)) hands).

(** A coordinate in [[0.0, 1.0]] (false for NaN). *)
Definition in_unit_interval (v : float) : bool :=
  PrimFloat.leb 0%float v && PrimFloat.leb v 1%float.

Definition normalized (p : LandmarkPosition) : Prop :=
  in_unit_interval p.1 = true ∧ in_unit_interval p.2 = true.

(** Two engine results that agree on the [x] and [y] of every landmark and
    may differ in every other field. *)
Definition same_positions (hands hands' : list NormalizedLandmarkList) : Prop :=
  Forall2 (λ h h', position_of <$> landmark h = position_of <$> landmark h')
          hands hands'.

(** The outcome of [m.get(k)] after a call that ended with [o]. *)
Definition outcome_map {E A B : Type} (f : A → B) (o : outcome E A)
    : outcome E B :=
  match o with
  | Returns a => Returns (f a)
  | Raises e => Raises e
  | Fault => Fault
  end.

(** How a call of [fetch_landmarks] ends when its call of [process] ended
    with [r]. *)
Definition fetch_outcome {E : Type} (r : E + ProcessResults)
    : outcome E (PyDict.dict LandmarkPosition) :=
  match r with
  | inl e => Raises e
  | inr res => Returns (build_landmark_map res)
  end.

Section Notions.
Context {Frame EngineState EngineError : Type}.
Context `{!HandsEngine Frame EngineState EngineError}.

(** In the store [w], [self] is a detector whose engine, run on the frame
    at [rgb_frame], ends with [r] and leaves the engine in state [st']. *)
Definition engine_run (w : World Frame EngineState) (self rgb_frame : addr)
    (r : EngineError + ProcessResults) (st' : EngineState) : Prop :=
  ∃ d st fr,
    detectors w !! self = Some d ∧
    engines w !! hand_processor d = Some st ∧
    frames w !! rgb_frame = Some fr ∧
    process st fr = (r, st').

(** The engine detects the hands [hands] ([None]: no hand) on the frame. *)
Definition engine_detects (w : World Frame EngineState)
    (self rgb_frame : addr)
    (hands : option (list NormalizedLandmarkList)) : Prop :=
  ∃ st', engine_run w self rgb_frame (inr (mkProcessResults hands)) st'.

(** Between [w] and [w'] nothing changed but, at most, the state of the
    engine that the detector [self] owns. *)
Definition only_engine_changed (self : addr)
    (w w' : World Frame EngineState) : Prop :=
  frames w' = frames w ∧
  detectors w' = detectors w ∧
  ∀ a, engines w' !! a ≠ engines w !! a →
       ∃ d, detectors w !! self = Some d ∧ a = hand_processor d.

(** The engine's answer does not depend on the engine's state. *)
Definition deterministic_engine : Prop :=
  ∀ (st1 st2 : EngineState) (fr : Frame),
    (process st1 fr).1 = (process st2 fr).1.
End Notions.

(** ** A stub engine, to run the wrapper on concrete frames *)

Module Stub.
Inductive error : Type := ConfigError | FrameError.

Definition lm (x y z : float) : NormalizedLandmark :=
  mkNormalizedLandmark x y z 0%float 0%float.

Definition left_hand : NormalizedLandmarkList :=
  mkNormalizedLandmarkList
    [lm 0.25 0.5 0.125; lm 0.75 0.5 0; lm 0.5 0.25 (-0.5)]%float.

Definition right_hand : NormalizedLandmarkList :=
  mkNormalizedLandmarkList [lm 0.125 1 0; lm 1.5 (-0.25) 0.5]%float.

(** A frame is a number that selects the canned answer: 0, no hand
    ([None]); 1, an empty list; 2, one hand; 3, two hands; 4, two hands in
    the other order; 5, one hand partly outside the image; otherwise the
    engine raises. The state counts the calls of [process]. *)
Definition answer (fr : nat) : error + ProcessResults :=
  match fr with
  | 0%nat => inr (mkProcessResults None)
  | 1%nat => inr (mkProcessResults (Some []))
  | 2%nat => inr (mkProcessResults (Some [left_hand]))
  | 3%nat => inr (mkProcessResults (Some [left_hand; right_hand]))
  | 4%nat => inr (mkProcessResults (Some [right_hand; left_hand]))
  | 5%nat => inr (mkProcessResults (Some [right_hand]))
  | _ => inl FrameError
  end.

#[global] Instance engine : HandsEngine nat nat error := {|
  Hands max_num_hands min_detection_confidence min_tracking_confidence :=
    if bool_decide (1 ≤ max_num_hands)
       && in_unit_interval min_detection_confidence
       && in_unit_interval min_tracking_confidence
    then inr 0%nat else inl ConfigError;
  process st fr := (answer fr, S st)
|}.

(** A store with the frames 0..6 at the addresses 1..7 and nothing else. *)
Definition world0 : World nat nat :=
  mkWorld (list_to_map [(1%positive, 0%nat); (2%positive, 1%nat);
                        (3%positive, 2%nat); (4%positive, 3%nat);
                        (5%positive, 4%nat); (6%positive, 5%nat);
                        (7%positive, 6%nat)])
          ∅ ∅.

(** The store after [LandmarkDetector(2, 0.5, 0.5)]: the detector at
    address 1, its engine at address 1, no call of [process] yet. *)
Definition world1 : World nat nat :=
  mkWorld (frames world0) {[ 1%positive := mkLandmarkDetector 1%positive ]}
          {[ 1%positive := 0%nat ]}.
End Stub.

(** An engine that tracks: its first call of [process] answers with one
    hand, every later call with another one, whatever the frame. *)
Definition tracking_engine : HandsEngine nat nat Stub.error := {|
  Hands max_num_hands min_detection_confidence min_tracking_confidence :=
    inr 0%nat;
  process st fr :=
    (inr (mkProcessResults
            (Some [match st with
                   | 0%nat => Stub.left_hand
                   | _ => Stub.right_hand
                   end])),
     S st)
|}.

(** * Properties *)

(** ** The dictionary *)

Section dict_facts.
Context {V : Type}.
Implicit Types (d : PyDict.dict V) (k : Z) (v : V).

Lemma get_setitem k k' v d :
  PyDict.get k' (PyDict.setitem k v d)
  = if decide (k = k') then Some v else PyDict.get k' d.
Proof.
  induction d as [|[k0 v0] d IH]; simpl.
  - repeat case_decide; congruence.
  - destruct (decide (k0 = k)) as [->|Hne]; simpl.
    + repeat case_decide; congruence.
    + rewrite IH. repeat case_decide; congruence.
Qed.

Lemma get_setitem_eq k v d : PyDict.get k (PyDict.setitem k v d) = Some v.
Proof. rewrite get_setitem. by case_decide. Qed.

Lemma get_setitem_ne k k' v d :
  k ≠ k' → PyDict.get k' (PyDict.setitem k v d) = PyDict.get k' d.
Proof. intros. rewrite get_setitem. by case_decide. Qed.

Lemma keys_setitem_in k v d :
  k ∈ PyDict.keys d → PyDict.keys (PyDict.setitem k v d) = PyDict.keys d.
Proof.
  unfold PyDict.keys. induction d as [|[k0 v0] d IH]; simpl.
  - by intros ?%elem_of_nil.
  - intros Hin. case_decide; simpl; [congruence|].
    f_equal. apply IH. apply elem_of_cons in Hin as [->|]; done.
Qed.

Lemma setitem_fresh k v d :
  k ∉ PyDict.keys d → PyDict.setitem k v d = d ++ [(k, v)].
Proof.
  unfold PyDict.keys. induction d as [|[k0 v0] d IH]; simpl; [done|].
  intros Hnin. apply not_elem_of_cons in Hnin as [? ?].
  case_decide; [congruence|]. f_equal. by apply IH.
Qed.

Lemma keys_setitem_fresh k v d :
  k ∉ PyDict.keys d → PyDict.keys (PyDict.setitem k v d) = PyDict.keys d ++ [k].
Proof.
  intros. rewrite setitem_fresh by done. unfold PyDict.keys.
  by rewrite fmap_app.
Qed.

Lemma NoDup_keys_setitem k v d :
  NoDup (PyDict.keys d) → NoDup (PyDict.keys (PyDict.setitem k v d)).
Proof.
  intros Hnd. destruct (decide (k ∈ PyDict.keys d)).
  - by rewrite keys_setitem_in.
  - rewrite keys_setitem_fresh by done. apply NoDup_app.
    split_and!; [done| |apply NoDup_singleton].
    intros k' Hk' ->%list_elem_of_singleton. done.
Qed.

Lemma get_None_keys k d : PyDict.get k d = None ↔ k ∉ PyDict.keys d.
Proof.
  unfold PyDict.keys. induction d as [|[k0 v0] d IH]; simpl.
  - split; [intros _; apply not_elem_of_nil|done].
  - rewrite not_elem_of_cons. case_decide; naive_solver.
Qed.

Lemma get_Some_elem_of k v d : PyDict.get k d = Some v → (k, v) ∈ d.
Proof.
  induction d as [|[k0 v0] d IH]; simpl; [done|].
  case_decide.
  - intros [= ->]. subst. apply list_elem_of_here.
  - intros. apply list_elem_of_further. auto.
Qed.

Lemma get_is_Some_keys k d : is_Some (PyDict.get k d) ↔ k ∈ PyDict.keys d.
Proof.
  rewrite <-not_eq_None_Some, get_None_keys.
  destruct (decide (k ∈ PyDict.keys d)); naive_solver.
Qed.
End dict_facts.

(** ** [enumerate] *)

Section enumerate_facts.
Context {A : Type}.
Implicit Types (l : list A) (s k : Z).

Lemma fst_enumerate_from l s :
  (enumerate_from s l).*1 = seqZ s (Z.of_nat (length l)).
Proof.
  revert s. induction l as [|a l IH]; intros s; simpl.
  - by rewrite seqZ_nil.
  - rewrite seqZ_cons by lia. rewrite IH. do 2 f_equal; lia.
Qed.

Lemma length_enumerate_from l s : length (enumerate_from s l) = length l.
Proof. revert s. induction l; intros; simpl; auto. Qed.

Lemma elem_of_enumerate_from l s k a :
  (k, a) ∈ enumerate_from s l ↔ s ≤ k ∧ l !! Z.to_nat (k - s) = Some a.
Proof.
  revert s. induction l as [|a0 l IH]; intros s; simpl.
  - rewrite elem_of_nil. naive_solver.
  - rewrite elem_of_cons, IH. split.
    + intros [[= -> ->]|[? Hl]].
      * split; [lia|]. by rewrite Z.sub_diag.
      * split; [lia|].
        replace (Z.to_nat (k - s)) with (S (Z.to_nat (k - (s + 1)))) by lia.
        done.
    + intros [? Hl]. destruct (decide (k = s)) as [->|].
      * rewrite Z.sub_diag in Hl. simpl in Hl. left. congruence.
      * right. split; [lia|].
        replace (Z.to_nat (k - s)) with (S (Z.to_nat (k - (s + 1)))) in Hl
          by lia.
        done.
Qed.
End enumerate_facts.

Lemma hand_ids_seqZ h : hand_ids h = seqZ 0 (num_landmarks h).
Proof. apply fst_enumerate_from. Qed.

Lemma elem_of_enumerate_landmark h k lm :
  (k, lm) ∈ enumerate (landmark h) ↔ landmark_with_id h k = Some lm.
Proof.
  unfold enumerate, landmark_with_id. rewrite elem_of_enumerate_from.
  rewrite Z.sub_0_r. case_decide; naive_solver.
Qed.

Lemma landmark_with_id_is_Some h k :
  is_Some (landmark_with_id h k) ↔ 0 ≤ k < num_landmarks h.
Proof.
  unfold landmark_with_id, num_landmarks. case_decide.
  - rewrite lookup_lt_is_Some. lia.
  - split; [by intros [? ?]|lia].
Qed.

(** ** The loops *)

Section loop_facts.
Implicit Types (m : PyDict.dict LandmarkPosition) (k s : Z).
Implicit Types (l : list NormalizedLandmark).
Implicit Types (hs : list NormalizedLandmarkList).

(** One turn of the inner loop. *)
Local Abbreviation store :=
  (λ landmark_map '(landmark_id, landmark),
     PyDict.setitem landmark_id (x landmark, y landmark) landmark_map).

Lemma get_foldl_store l s m k :
  PyDict.get k (foldl store m (enumerate_from s l))
  = match (if decide (s ≤ k) then l !! Z.to_nat (k - s) else None) with
    | Some lm => Some (position_of lm)
    | None => PyDict.get k m
    end.
Proof.
  revert s m. induction l as [|a l IH]; intros s m; simpl.
  - by case_decide.
  - rewrite IH, get_setitem.
    destruct (decide (s + 1 ≤ k)), (decide (s ≤ k)), (decide (s = k));
      try lia; try done.
    + by replace (Z.to_nat (k - s)) with (S (Z.to_nat (k - (s + 1)))) by lia.
    + subst. by rewrite Z.sub_diag.
Qed.

Lemma get_for_landmark h m k :
  PyDict.get k (for_landmark (landmark h) m)
  = match landmark_with_id h k with
    | Some lm => Some (position_of lm)
    | None => PyDict.get k m
    end.
Proof.
  unfold for_landmark, enumerate, landmark_with_id.
  rewrite get_foldl_store, Z.sub_0_r. done.
Qed.

Lemma for_hand_landmarks_cons h hs m :
  for_hand_landmarks (h :: hs) m
  = for_hand_landmarks hs (for_landmark (landmark h) m).
Proof. done. Qed.

Lemma for_hand_landmarks_app hs1 hs2 m :
  for_hand_landmarks (hs1 ++ hs2) m
  = for_hand_landmarks hs2 (for_hand_landmarks hs1 m).
Proof. apply foldl_app. Qed.

Lemma get_for_hand_landmarks hs m k :
  PyDict.get k (for_hand_landmarks hs m)
  = match last_landmark_with_id k hs with
    | Some lm => Some (position_of lm)
    | None => PyDict.get k m
    end.
Proof.
  revert m. induction hs as [|h hs IH]; intros m; [done|].
  rewrite for_hand_landmarks_cons, IH. simpl.
  destruct (last_landmark_with_id k hs); [done|].
  apply get_for_landmark.
Qed.

Lemma last_landmark_with_id_app k hs1 hs2 :
  last_landmark_with_id k (hs1 ++ hs2)
  = match last_landmark_with_id k hs2 with
    | Some lm => Some lm
    | None => last_landmark_with_id k hs1
    end.
Proof.
  induction hs1 as [|h hs1 IH]; simpl.
  - by destruct (last_landmark_with_id k hs2).
  - rewrite IH. by destruct (last_landmark_with_id k hs2).
Qed.

Lemma last_landmark_with_id_None k hs :
  Forall (λ h, landmark_with_id h k = None) hs →
  last_landmark_with_id k hs = None.
Proof. induction 1 as [|h hs Hh _ IH]; simpl; [done|]. by rewrite IH. Qed.

(** The keys stay an initial segment of the integers. *)
Lemma keys_foldl_store l s m a :
  0 ≤ s ≤ a → PyDict.keys m = seqZ 0 a →
  PyDict.keys (foldl store m (enumerate_from s l))
  = seqZ 0 (Z.max a (s + Z.of_nat (length l))).
Proof.
  revert s m a.
  induction l as [|lm l IH]; intros s m a Hs Hm; cbn [enumerate_from foldl].
  - rewrite Hm. f_equal. cbn [length]. lia.
  - destruct (decide (s = a)) as [->|Hne].
    + rewrite (IH (a + 1) _ (a + 1)); [f_equal; cbn [length]; lia|lia|].
      rewrite keys_setitem_fresh, Hm.
      * by rewrite seqZ_app by lia.
      * rewrite Hm, elem_of_seqZ. lia.
    + rewrite (IH (s + 1) _ a); [f_equal; cbn [length]; lia|lia|].
      rewrite keys_setitem_in; [done|].
      rewrite Hm, elem_of_seqZ. lia.
Qed.

Lemma keys_for_landmark l m a :
  0 ≤ a → PyDict.keys m = seqZ 0 a →
  PyDict.keys (for_landmark l m) = seqZ 0 (Z.max a (Z.of_nat (length l))).
Proof.
  intros. unfold for_landmark, enumerate.
  rewrite (keys_foldl_store l 0 m a) by (done || lia). done.
Qed.

Lemma keys_for_hand_landmarks hs m a :
  0 ≤ a → PyDict.keys m = seqZ 0 a →
  PyDict.keys (for_hand_landmarks hs m)
  = seqZ 0 (Z.max a (max_num_landmarks hs)).
Proof.
  revert m a. induction hs as [|h hs IH]; intros m a Ha Hm.
  - cbn [for_hand_landmarks foldl]. rewrite Hm.
    unfold max_num_landmarks. simpl. f_equal. lia.
  - rewrite for_hand_landmarks_cons.
    rewrite (IH _ (Z.max a (Z.of_nat (length (landmark h)))));
      [|lia|by apply keys_for_landmark].
    unfold max_num_landmarks. simpl. f_equal. lia.
Qed.
End loop_facts.

(** ** First occurrences *)

Section first_occurrences_facts.
Implicit Types (l : list Z) (k : Z).

Lemma filter_all (P : Z → Prop) `{!∀ k, Decision (P k)} l :
  Forall P l → filter P l = l.
Proof.
  induction 1 as [|k l Hk _ IH]; [done|].
  by rewrite filter_cons_True, IH.
Qed.

Lemma first_occurrences_filter (P : Z → Prop) `{!∀ k, Decision (P k)} l :
  first_occurrences (filter P l) = filter P (first_occurrences l).
Proof.
  induction l as [|k l IH]; [done|]. simpl.
  destruct (decide (P k)) as [Hk|Hk].
  - rewrite !filter_cons_True by done. simpl. rewrite IH. f_equal.
    rewrite !list_filter_filter. apply list_filter_iff. naive_solver.
  - rewrite !filter_cons_False by done. rewrite IH.
    rewrite list_filter_filter. apply list_filter_iff.
    intros k'. split; [|naive_solver]. intros Hk'. split; [done|].
    by intros ->.
Qed.

Lemma elem_of_first_occurrences l k : k ∈ first_occurrences l ↔ k ∈ l.
Proof.
  induction l as [|k0 l IH]; [done|]. simpl.
  rewrite !elem_of_cons, list_elem_of_filter, IH.
  destruct (decide (k = k0)); naive_solver.
Qed.

Lemma NoDup_first_occurrences l : NoDup (first_occurrences l).
Proof.
  induction l as [|k l IH]; simpl; [apply NoDup_nil_2|].
  apply NoDup_cons. split; [|by apply NoDup_filter].
  rewrite list_elem_of_filter. naive_solver.
Qed.

Lemma first_occurrences_NoDup l : NoDup l → first_occurrences l = l.
Proof.
  induction 1 as [|k l Hk _ IH]; [done|]. simpl. rewrite IH. f_equal.
  apply filter_all, Forall_forall. by intros k' Hk' ->.
Qed.

(** A later occurrence of an id that is already there changes nothing. *)
Lemma first_occurrences_again l1 l2 k :
  k ∈ l1 → first_occurrences (l1 ++ k :: l2) = first_occurrences (l1 ++ l2).
Proof.
  induction l1 as [|k1 l1 IH]; [by intros ?%elem_of_nil|].
  intros Hin. simpl. f_equal. destruct (decide (k = k1)) as [->|Hne].
  - rewrite <-!first_occurrences_filter, !filter_app.
    by rewrite filter_cons_False by naive_solver.
  - apply elem_of_cons in Hin as [?|?]; [done|]. by rewrite IH.
Qed.

(** The ids of a longer list: those of the front, then the new ones. *)
Lemma first_occurrences_app l1 l2 :
  first_occurrences (l1 ++ l2)
  = first_occurrences l1
    ++ filter (λ k, k ∉ first_occurrences l1) (first_occurrences l2).
Proof.
  induction l1 as [|k1 l1 IH]; simpl.
  - symmetry. apply filter_all, Forall_forall. intros k _. apply not_elem_of_nil.
  - f_equal. rewrite IH, filter_app. f_equal.
    rewrite list_filter_filter. apply list_filter_iff. intros k.
    rewrite not_elem_of_cons, list_elem_of_filter. tauto.
Qed.
End first_occurrences_facts.

(** ** The loops, seen as one pass over all the landmarks *)

Section flatten_facts.
Implicit Types (m : PyDict.dict LandmarkPosition) (k s : Z).
Implicit Types (l : list NormalizedLandmark).
Implicit Types (hs : list NormalizedLandmarkList).

Local Abbreviation store :=
  (λ landmark_map '(landmark_id, landmark),
     PyDict.setitem landmark_id (x landmark, y landmark) landmark_map).

Lemma for_hand_landmarks_concat hs m :
  for_hand_landmarks hs m
  = foldl store m (concat ((λ h, enumerate (landmark h)) <$> hs)).
Proof.
  revert m. induction hs as [|h hs IH]; intros m; [done|].
  rewrite for_hand_landmarks_cons, IH, fmap_cons. simpl concat.
  by rewrite foldl_app.
Qed.

Lemma fst_concat_enumerate hs :
  (concat ((λ h, enumerate (landmark h)) <$> hs)).*1
  = concat (hand_ids <$> hs).
Proof.
  induction hs as [|h hs IH]; [done|].
  rewrite !fmap_cons. simpl concat. by rewrite fmap_app, IH.
Qed.

Lemma keys_foldl_store_first (kvs : list (Z * NormalizedLandmark)) m :
  NoDup (PyDict.keys m) →
  PyDict.keys (foldl store m kvs)
  = first_occurrences (PyDict.keys m ++ kvs.*1).
Proof.
  revert m. induction kvs as [|[k lm] kvs IH]; intros m Hm.
  - cbn [foldl fmap list_fmap]. rewrite app_nil_r.
    by rewrite first_occurrences_NoDup.
  - cbn [foldl]. rewrite IH by by apply NoDup_keys_setitem.
    rewrite fmap_cons. cbn [fst].
    destruct (decide (k ∈ PyDict.keys m)).
    + by rewrite keys_setitem_in, first_occurrences_again.
    + rewrite keys_setitem_fresh by done. by rewrite <-app_assoc.
Qed.

Lemma keys_for_hand_landmarks_first hs :
  PyDict.keys (for_hand_landmarks hs PyDict.empty)
  = first_occurrences (concat (hand_ids <$> hs)).
Proof.
  rewrite for_hand_landmarks_concat, keys_foldl_store_first.
  - by rewrite fst_concat_enumerate.
  - apply NoDup_nil_2.
Qed.

(** On a dictionary whose keys are all below [s], the inner loop started at
    [s] only appends. *)
Lemma foldl_store_append l s m :
  Forall (λ k, k < s) (PyDict.keys m) →
  foldl store m (enumerate_from s l)
  = m ++ (prod_map id position_of <$> enumerate_from s l).
Proof.
  revert s m. induction l as [|lm l IH]; intros s m Hm.
  - cbn [enumerate_from foldl fmap list_fmap]. by rewrite app_nil_r.
  - cbn [enumerate_from foldl]. rewrite setitem_fresh.
    + rewrite IH.
      * by rewrite <-app_assoc.
      * unfold PyDict.keys in *. rewrite fmap_app, Forall_app. split.
        -- eapply Forall_impl; [done|]. simpl. lia.
        -- apply Forall_singleton. simpl. lia.
    + intros Hin. rewrite Forall_forall in Hm. apply Hm in Hin. lia.
Qed.

Lemma for_landmark_empty l :
  for_landmark l PyDict.empty = prod_map id position_of <$> enumerate l.
Proof.
  unfold for_landmark, enumerate. rewrite foldl_store_append; [done|].
  apply Forall_nil_2.
Qed.

(** The loops read the positions only. *)
Lemma foldl_store_positions l l' s m :
  position_of <$> l = position_of <$> l' →
  foldl store m (enumerate_from s l) = foldl store m (enumerate_from s l').
Proof.
  revert l' s m. induction l as [|lm l IH]; intros [|lm' l'] s m Heq;
    try done.
  rewrite !fmap_cons in Heq. injection Heq as Hx Hy Hl.
  cbn [enumerate_from foldl]. rewrite Hx, Hy. by apply IH.
Qed.

Lemma for_hand_landmarks_positions hs hs' m :
  same_positions hs hs' →
  for_hand_landmarks hs m = for_hand_landmarks hs' m.
Proof.
  intros Hs. revert m. induction Hs as [|h h' hs hs' Hh _ IH]; intros m.
  - done.
  - rewrite !for_hand_landmarks_cons.
    unfold for_landmark, enumerate at 1.
    rewrite (foldl_store_positions _ _ _ _ Hh). apply IH.
Qed.
End flatten_facts.

(** ** The wrapper *)

Section wrapper_facts.
Context {Frame EngineState EngineError : Type}.
Context `{!HandsEngine Frame EngineState EngineError}.
Implicit Types (w : World Frame EngineState) (self rgb_frame : addr).

(** One call of [fetch_landmarks] is one call of [process]. *)
Lemma fetch_landmarks_run w self rgb_frame d st fr r st' :
  detectors w !! self = Some d →
  engines w !! hand_processor d = Some st →
  frames w !! rgb_frame = Some fr →
  process st fr = (r, st') →
  fetch_landmarks self rgb_frame w
  = (match r with
     | inl e => Raises e
     | inr res => Returns (build_landmark_map res)
     end,
     mkWorld (frames w) (detectors w)
             (<[hand_processor d := st']> (engines w))).
Proof.
  intros Hd Hst Hfr Hp.
  unfold fetch_landmarks, bind, getattr_hand_processor, call_process, ret.
  rewrite Hd. simpl. rewrite Hst, Hfr, Hp. by destruct r.
Qed.

Lemma fetch_landmarks_detects w self rgb_frame hands :
  engine_detects w self rgb_frame hands →
  ∃ w', fetch_landmarks self rgb_frame w
        = (Returns (build_landmark_map (mkProcessResults hands)), w').
Proof.
  intros (st' & d & st & fr & Hd & Hst & Hfr & Hp).
  eexists. by rewrite (fetch_landmarks_run _ _ _ _ _ _ _ _ Hd Hst Hfr Hp).
Qed.

Lemma fetch_landmark_position_unfold w self rgb_frame landmark_id :
  fetch_landmark_position self rgb_frame landmark_id w
  = (outcome_map (PyDict.get landmark_id)
                 (fetch_landmarks self rgb_frame w).1,
     (fetch_landmarks self rgb_frame w).2).
Proof.
  unfold fetch_landmark_position, bind, ret.
  by destruct (fetch_landmarks self rgb_frame w) as [[m|e|] w'].
Qed.

Lemma only_engine_changed_refl self w : only_engine_changed self w w.
Proof. split_and!; [done..|]. by intros a []. Qed.

Lemma fetch_landmarks_only_engine w self rgb_frame :
  only_engine_changed self w (fetch_landmarks self rgb_frame w).2.
Proof.
  unfold fetch_landmarks, bind, getattr_hand_processor, call_process, ret.
  destruct (detectors w !! self) as [d|] eqn:Hd; simpl;
    [|apply only_engine_changed_refl].
  destruct (engines w !! hand_processor d) as [st|]; simpl;
    [|apply only_engine_changed_refl].
  destruct (frames w !! rgb_frame) as [fr|]; simpl;
    [|apply only_engine_changed_refl].
  destruct (process st fr) as [[e|res] st']; simpl.
  all: split_and!; [done..|]; simpl; intros a Ha; exists d; split; [done|].
  all: destruct (decide (a = hand_processor d)); [done|].
  all: by rewrite lookup_insert_ne in Ha.
Qed.

(** With an engine whose answers do not depend on its state, a second call
    on the same frame ends as the first did. *)
Lemma fetch_landmarks_again w self rgb_frame :
  deterministic_engine →
  (fetch_landmarks self rgb_frame (fetch_landmarks self rgb_frame w).2).1
  = (fetch_landmarks self rgb_frame w).1.
Proof.
  intros Hdet.
  destruct (detectors w !! self) as [d|] eqn:Hd; cycle 1.
  { unfold fetch_landmarks, bind, getattr_hand_processor. rewrite Hd. simpl.
    by rewrite Hd. }
  destruct (engines w !! hand_processor d) as [st|] eqn:Hst; cycle 1.
  { unfold fetch_landmarks, bind, getattr_hand_processor, call_process.
    rewrite Hd. simpl. rewrite Hst. simpl. rewrite Hd. simpl. by rewrite Hst. }
  destruct (frames w !! rgb_frame) as [fr|] eqn:Hfr; cycle 1.
  { unfold fetch_landmarks, bind, getattr_hand_processor, call_process.
    rewrite Hd. simpl. rewrite Hst, Hfr. simpl. rewrite Hd. simpl.
    by rewrite Hst, Hfr. }
  destruct (process st fr) as [r st'] eqn:Hp.
  rewrite (fetch_landmarks_run w _ _ _ _ _ _ _ Hd Hst Hfr Hp). simpl.
  destruct (process st' fr) as [r' st''] eqn:Hp'.
  erewrite fetch_landmarks_run; [|done|by apply lookup_insert_eq|done|done].
  simpl. specialize (Hdet st st' fr). rewrite Hp, Hp' in Hdet.
  simpl in Hdet. by subst.
Qed.
End wrapper_facts.

(** ** What [fetch_landmarks] returns *)

Lemma build_landmark_map_hands hands :
  build_landmark_map (mkProcessResults hands)
  = for_hand_landmarks (default [] hands) PyDict.empty.
Proof. by destruct hands as [[|h hs]|]. Qed.

Lemma keys_build_landmark_map hands :
  PyDict.keys (build_landmark_map (mkProcessResults hands))
  = seqZ 0 (max_num_landmarks (default [] hands)).
Proof.
  rewrite build_landmark_map_hands.
  rewrite (keys_for_hand_landmarks _ _ 0); [|done|done].
  f_equal. unfold max_num_landmarks. lia.
Qed.

Lemma get_build_landmark_map hands k :
  PyDict.get k (build_landmark_map (mkProcessResults hands))
  = position_of <$> last_landmark_with_id k (default [] hands).
Proof.
  rewrite build_landmark_map_hands, get_for_hand_landmarks.
  by destruct (last_landmark_with_id k (default [] hands)).
Qed.

Lemma length_filter_eq_NoDup (l : list Z) (k : Z) :
  NoDup l → k ∈ l → length (filter (λ k', k' = k) l) = 1%nat.
Proof.
  induction 1 as [|k0 l Hk0 Hnd IH]; [by intros ?%elem_of_nil|].
  intros Hin. destruct (decide (k0 = k)) as [->|Hne].
  - rewrite filter_cons_True by done. simpl. f_equal.
    destruct (filter (λ k', k' = k) l) as [|k1 ?] eqn:Hf; [done|].
    assert (k1 ∈ filter (λ k', k' = k) l) as Hk1
      by (rewrite Hf; apply list_elem_of_here).
    apply list_elem_of_filter in Hk1 as [-> ?]. done.
  - rewrite filter_cons_False by done. apply IH.
    apply elem_of_cons in Hin as [?|?]; [congruence|done].
Qed.

Section claims.
Context {Frame EngineState EngineError : Type}.
Context `{!HandsEngine Frame EngineState EngineError}.
Implicit Types (w : World Frame EngineState) (self rgb_frame : addr).

(** C1. When the engine detects the hands [pre ++ h :: post] and the id [k]
    belongs to one of the earlier hands [pre] as well as to [h], the last
    hand that has it, then [fetch_landmarks] returns a map in which [k] is
    a key exactly once, bound to the [(x, y)] of the landmark [k] of [h]:
    the later hand wins. *)
Theorem fetch_landmarks_last_hand_wins w self rgb_frame pre h post k lm :
  engine_detects w self rgb_frame (Some (pre ++ h :: post)) →
  Exists (λ h', is_Some (landmark_with_id h' k)) pre →
  landmark_with_id h k = Some lm →
  Forall (λ h', landmark_with_id h' k = None) post →
  ∃ m w',
    fetch_landmarks self rgb_frame w = (Returns m, w') ∧
    length (filter (λ k', k' = k) (PyDict.keys m)) = 1%nat ∧
    PyDict.get k m = Some (x lm, y lm).
Proof.
  intros Hdet _ Hh Hpost.
  destruct (fetch_landmarks_detects _ _ _ _ Hdet) as [w' Hfetch].
  eexists _, w'. split; [exact Hfetch|].
  assert (PyDict.get k (build_landmark_map
            (mkProcessResults (Some (pre ++ h :: post))))
          = Some (x lm, y lm)) as Hget.
  { rewrite get_build_landmark_map. simpl default.
    rewrite last_landmark_with_id_app. simpl.
    by rewrite (last_landmark_with_id_None _ _ Hpost), Hh. }
  split; [|exact Hget].
  apply length_filter_eq_NoDup.
  - rewrite keys_build_landmark_map. apply NoDup_seqZ.
  - apply get_is_Some_keys. by rewrite Hget.
Qed.

(** C4. When the engine detects no hand, its list of hands being absent
    ([None]) or empty, [fetch_landmarks] returns the empty map. *)
Theorem fetch_landmarks_no_hands w self rgb_frame hands :
  engine_detects w self rgb_frame hands →
  hands = None ∨ hands = Some [] →
  ∃ w', fetch_landmarks self rgb_frame w = (Returns PyDict.empty, w').
Proof.
  intros Hdet Hnone.
  destruct (fetch_landmarks_detects _ _ _ _ Hdet) as [w' Hfetch].
  exists w'. rewrite Hfetch. by destruct Hnone as [-> | ->].
Qed.

(** C9. Whatever hands the engine detects, the keys of the map that
    [fetch_landmarks] returns are exactly 0, ..., M-1, in this order, where
    M is the largest number of landmarks of a hand; the map has M entries,
    not the sum over the hands. *)
Theorem fetch_landmarks_keys_range w self rgb_frame hands :
  engine_detects w self rgb_frame (Some hands) →
  ∃ m w',
    fetch_landmarks self rgb_frame w = (Returns m, w') ∧
    PyDict.keys m = seqZ 0 (max_num_landmarks hands) ∧
    (∀ k, k ∈ PyDict.keys m ↔ 0 ≤ k < max_num_landmarks hands) ∧
    PyDict.len m = max_num_landmarks hands.
Proof.
  intros Hdet.
  destruct (fetch_landmarks_detects _ _ _ _ Hdet) as [w' Hfetch].
  eexists _, w'. split; [exact Hfetch|].
  pose proof (keys_build_landmark_map (Some hands)) as Hkeys.
  simpl default in Hkeys. split_and!.
  - exact Hkeys.
  - intros k. rewrite Hkeys, elem_of_seqZ. lia.
  - unfold PyDict.len.
    rewrite <-(length_fmap fst). fold (PyDict.keys (build_landmark_map
      (mkProcessResults (Some hands)))).
    rewrite Hkeys, length_seqZ. unfold max_num_landmarks. lia.
Qed.

(** C10. Whatever the engine answers, the value that [fetch_landmarks]
    stores under an id is the pair of the raw [x] and [y] of the engine's
    landmark with that id (of the last hand that has one), unchanged, in or
    out of [[0.0, 1.0]]; and the map does not depend on any other field of
    the landmarks: results with the same [x] and [y] give the same map. *)
Theorem fetch_landmarks_verbatim w self rgb_frame hands :
  engine_detects w self rgb_frame hands →
  ∃ m w',
    fetch_landmarks self rgb_frame w = (Returns m, w') ∧
    (∀ k, PyDict.get k m
          = (λ lm, (x lm, y lm))
              <$> last_landmark_with_id k (default [] hands)) ∧
    (∀ hands', same_positions (default [] hands) hands' →
               build_landmark_map (mkProcessResults (Some hands')) = m).
Proof.
  intros Hdet.
  destruct (fetch_landmarks_detects _ _ _ _ Hdet) as [w' Hfetch].
  eexists _, w'. split; [exact Hfetch|]. split.
  - intros k. apply get_build_landmark_map.
  - intros hands' Hsame. rewrite !build_landmark_map_hands. simpl default.
    symmetry. by apply for_hand_landmarks_positions.
Qed.
End claims.

Lemma snd_enumerate_from_fmap {A B : Type} (f : A → B) (l : list A) s :
  (prod_map id f <$> enumerate_from s l).*2 = f <$> l.
Proof.
  revert s. induction l as [|a l IH]; intros s; [done|].
  cbn [enumerate_from]. rewrite !fmap_cons. cbn [prod_map snd]. by rewrite IH.
Qed.

Lemma fst_enumerate_from_fmap {A B : Type} (f : A → B) (l : list A) s :
  (prod_map id f <$> enumerate_from s l).*1 = (enumerate_from s l).*1.
Proof.
  revert s. induction l as [|a l IH]; intros s; [done|].
  cbn [enumerate_from]. rewrite !fmap_cons. cbn [prod_map fst]. by rewrite IH.
Qed.

Section claims_shape.
Context {Frame EngineState EngineError : Type}.
Context `{!HandsEngine Frame EngineState EngineError}.
Implicit Types (w : World Frame EngineState) (self rgb_frame : addr).

(** C3, as the code has it. When the engine detects exactly one hand, with
    N landmarks, [fetch_landmarks] returns a map with exactly N entries,
    whose keys are 0, ..., N-1 and whose values are the [(x, y)] pairs of
    the hand's landmarks as the engine gave them; the coordinates lie in
    [[0.0, 1.0]] exactly when the engine's do. *)
Theorem fetch_landmarks_one_hand w self rgb_frame h :
  engine_detects w self rgb_frame (Some [h]) →
  ∃ m w',
    fetch_landmarks self rgb_frame w = (Returns m, w') ∧
    PyDict.len m = num_landmarks h ∧
    PyDict.keys m = seqZ 0 (num_landmarks h) ∧
    PyDict.values m = (λ lm, (x lm, y lm)) <$> landmark h ∧
    (Forall normalized (PyDict.values m)
     ↔ Forall (λ lm, normalized (x lm, y lm)) (landmark h)).
Proof.
  intros Hdet.
  destruct (fetch_landmarks_detects _ _ _ _ Hdet) as [w' Hfetch].
  eexists _, w'. split; [exact Hfetch|].
  assert (build_landmark_map (mkProcessResults (Some [h]))
          = prod_map id position_of <$> enumerate (landmark h)) as ->.
  { rewrite build_landmark_map_hands. simpl default.
    rewrite for_hand_landmarks_cons. apply for_landmark_empty. }
  assert (PyDict.values
            (prod_map id position_of <$> enumerate (landmark h))
          = position_of <$> landmark h) as Hvalues
    by apply snd_enumerate_from_fmap.
  split_and!.
  - unfold PyDict.len, enumerate.
    by rewrite length_fmap, length_enumerate_from.
  - unfold PyDict.keys, enumerate.
    rewrite fst_enumerate_from_fmap. apply fst_enumerate_from.
  - exact Hvalues.
  - rewrite Hvalues. apply Forall_fmap.
Qed.

(** C6. Whatever the engine answers, the keys of the map that
    [fetch_landmarks] returns stand in the order of their first insertion:
    the ids of the hands, hand after hand and each hand in enumeration
    order, every id kept at its first occurrence. So for every split of
    the hands into earlier and later ones, the keys are those of the map
    of the earlier hands, in their order, followed by the ids that the
    later hands bring in: overwriting moves no key. *)
Theorem fetch_landmarks_insertion_order w self rgb_frame hands :
  engine_detects w self rgb_frame hands →
  ∃ m w',
    fetch_landmarks self rgb_frame w = (Returns m, w') ∧
    PyDict.keys m
    = first_occurrences (concat (hand_ids <$> default [] hands)) ∧
    (∀ pre post, default [] hands = pre ++ post →
       PyDict.keys m
       = PyDict.keys (build_landmark_map (mkProcessResults (Some pre)))
         ++ filter
              (λ k, k ∉ PyDict.keys
                          (build_landmark_map (mkProcessResults (Some pre))))
              (first_occurrences (concat (hand_ids <$> post)))).
Proof.
  intros Hdet.
  destruct (fetch_landmarks_detects _ _ _ _ Hdet) as [w' Hfetch].
  eexists _, w'. split; [exact Hfetch|].
  rewrite !build_landmark_map_hands, keys_for_hand_landmarks_first.
  split; [done|]. intros pre post ->.
  rewrite build_landmark_map_hands. simpl default.
  rewrite keys_for_hand_landmarks_first.
  by rewrite fmap_app, concat_app, first_occurrences_app.
Qed.

(** C2. [fetch_landmark_position(frame, landmark_id)] ends as
    [fetch_landmarks(frame).get(landmark_id)] does, for every integer id:
    when [fetch_landmarks] returns the map [m], it returns the pair bound
    to the id if the id is a key of [m], and [None], not an error, if it
    is not. *)
Theorem fetch_landmark_position_is_get w self rgb_frame landmark_id :
  fetch_landmark_position self rgb_frame landmark_id w
  = (outcome_map (PyDict.get landmark_id)
                 (fetch_landmarks self rgb_frame w).1,
     (fetch_landmarks self rgb_frame w).2)
  ∧ ∀ m w',
      fetch_landmarks self rgb_frame w = (Returns m, w') →
      fetch_landmark_position self rgb_frame landmark_id w
      = (Returns (PyDict.get landmark_id m), w') ∧
      (landmark_id ∈ PyDict.keys m →
         ∃ p, PyDict.get landmark_id m = Some p ∧ (landmark_id, p) ∈ m) ∧
      (landmark_id ∉ PyDict.keys m → PyDict.get landmark_id m = None).
Proof.
  split; [apply fetch_landmark_position_unfold|].
  intros m w' Hfetch. split_and!.
  - by rewrite fetch_landmark_position_unfold, Hfetch.
  - intros [p Hp]%get_is_Some_keys. exists p. split; [done|].
    by apply get_Some_elem_of.
  - apply get_None_keys.
Qed.
End claims_shape.

(** ** The constructor, errors and the store *)

Section claims_effects.
Context {Frame EngineState EngineError : Type}.
Context `{!HandsEngine Frame EngineState EngineError}.
Implicit Types (w : World Frame EngineState) (self rgb_frame : addr).

Lemma init_unfold w self max_num_hands min_detection_confidence
    min_tracking_confidence :
  __init__ self max_num_hands min_detection_confidence
           min_tracking_confidence w
  = match Hands max_num_hands min_detection_confidence
                min_tracking_confidence with
    | inl e => (Raises e, w)
    | inr st =>
        (Returns tt,
         mkWorld (frames w)
                 (<[self := mkLandmarkDetector (fresh (dom (engines w)))]>
                    (detectors w))
                 (<[fresh (dom (engines w)) := st]> (engines w)))
    end.
Proof.
  unfold __init__, bind, call_Hands, setattr_hand_processor.
  by destruct (Hands _ _ _).
Qed.

Lemma new_LandmarkDetector_unfold w max_num_hands min_detection_confidence
    min_tracking_confidence :
  new_LandmarkDetector max_num_hands min_detection_confidence
                       min_tracking_confidence w
  = match Hands max_num_hands min_detection_confidence
                min_tracking_confidence with
    | inl e => (Raises e, w)
    | inr st =>
        (Returns (fresh (dom (detectors w))),
         mkWorld (frames w)
                 (<[fresh (dom (detectors w))
                    := mkLandmarkDetector (fresh (dom (engines w)))]>
                    (detectors w))
                 (<[fresh (dom (engines w)) := st]> (engines w)))
    end.
Proof.
  unfold new_LandmarkDetector, bind. rewrite init_unfold.
  by destruct (Hands _ _ _).
Qed.

(** C7. The constructor checks nothing itself: for all arguments, in range
    or not, what [__init__] (and so [LandmarkDetector(...)]) does is
    decided by the engine's constructor on these same arguments; when that
    raises, the same exception reaches the caller and the store is as
    before. When [process] raises during [fetch_landmarks] or
    [fetch_landmark_position], the same exception reaches the caller after
    this one call of [process]: nothing is caught, retried or translated. *)
Theorem engine_errors_propagate w self rgb_frame landmark_id max_num_hands
    min_detection_confidence min_tracking_confidence :
  __init__ self max_num_hands min_detection_confidence
           min_tracking_confidence w
  = match Hands max_num_hands min_detection_confidence
                min_tracking_confidence with
    | inl e => (Raises e, w)
    | inr st =>
        (Returns tt,
         mkWorld (frames w)
                 (<[self := mkLandmarkDetector (fresh (dom (engines w)))]>
                    (detectors w))
                 (<[fresh (dom (engines w)) := st]> (engines w)))
    end
  ∧ (∀ e, Hands max_num_hands min_detection_confidence
                min_tracking_confidence = inl e →
          new_LandmarkDetector max_num_hands min_detection_confidence
                               min_tracking_confidence w
          = (Raises e, w))
  ∧ (∀ e st', engine_run w self rgb_frame (inl e) st' →
       ∃ w', fetch_landmarks self rgb_frame w = (Raises e, w') ∧
             fetch_landmark_position self rgb_frame landmark_id w
             = (Raises e, w') ∧
             ∀ d, detectors w !! self = Some d →
                  engines w' !! hand_processor d = Some st').
Proof.
  split_and!.
  - apply init_unfold.
  - intros e He. by rewrite new_LandmarkDetector_unfold, He.
  - intros e st' (d & st & fr & Hd & Hst & Hfr & Hp).
    pose proof (fetch_landmarks_run _ _ _ _ _ _ _ _ Hd Hst Hfr Hp) as Hrun.
    eexists. split_and!.
    + exact Hrun.
    + by rewrite fetch_landmark_position_unfold, Hrun.
    + intros d' Hd'. simplify_eq. simpl. apply lookup_insert_eq.
Qed.

(** C8. A call of [fetch_landmarks] or of [fetch_landmark_position] leaves
    every frame of the caller and every attribute of every detector as it
    was, and stores no new reference; the only object whose state may have
    changed is the engine that the detector owns. *)
Theorem fetch_only_engine_changed w self rgb_frame landmark_id :
  only_engine_changed self w (fetch_landmarks self rgb_frame w).2 ∧
  only_engine_changed self w
    (fetch_landmark_position self rgb_frame landmark_id w).2.
Proof.
  split.
  - apply fetch_landmarks_only_engine.
  - rewrite fetch_landmark_position_unfold. simpl.
    apply fetch_landmarks_only_engine.
Qed.

(** C5. With an engine whose answer depends on the frame only, a detector
    made by [LandmarkDetector(2, 0.5, 0.5)] gives the same result on two
    successive calls of [fetch_landmarks] on the same frame: if the first
    returns a map, the second returns an equal one. (If the frame exists,
    the calls do end as Python calls do, by returning or raising.) *)
Theorem fetch_landmarks_twice w0 self w1 rgb_frame r1 w2 r2 w3 :
  deterministic_engine →
  new_LandmarkDetector 2 0.5%float 0.5%float w0 = (Returns self, w1) →
  fetch_landmarks self rgb_frame w1 = (r1, w2) →
  fetch_landmarks self rgb_frame w2 = (r2, w3) →
  r1 = r2 ∧
  (∀ m, r1 = Returns m → r2 = Returns m) ∧
  (is_Some (frames w0 !! rgb_frame) → r1 ≠ Fault).
Proof.
  intros Hdet Hnew H1 H2.
  assert (r1 = r2) as <-.
  { pose proof (fetch_landmarks_again w1 self rgb_frame Hdet) as Hag.
    rewrite H1 in Hag. simpl in Hag. rewrite H2 in Hag. done. }
  split_and!; [done|done|].
  intros [fr Hfr]. rewrite new_LandmarkDetector_unfold in Hnew.
  destruct (Hands _ _ _) as [e|st]; [done|].
  injection Hnew as <- <-.
  destruct (process st fr) as [r st'] eqn:Hp.
  erewrite fetch_landmarks_run in H1;
    [|by apply lookup_insert_eq|by apply lookup_insert_eq|exact Hfr|exact Hp].
  injection H1 as <- _. by destruct r.
Qed.
End claims_effects.

(** ** The wrapper on the stub engine *)

Lemma stub_detects (p : addr) (n : nat) hands :
  frames Stub.world0 !! p = Some n →
  Stub.answer n = inr (mkProcessResults hands) →
  engine_detects Stub.world1 1%positive p hands.
Proof.
  intros Hp Hn. exists 1%nat, (mkLandmarkDetector 1%positive), 0%nat, n.
  split_and!; [done|done|exact Hp|]. simpl. by rewrite Hn.
Qed.

Lemma stub_deterministic :
  @deterministic_engine nat nat Stub.error Stub.engine.
Proof. by intros st1 st2 fr. Qed.

Lemma fetch_landmarks_last_hand_wins_witness :
  engine_detects Stub.world1 1%positive 4%positive
    (Some ([Stub.left_hand] ++ Stub.right_hand :: [])) ∧
  ∃ m w',
    fetch_landmarks 1%positive 4%positive Stub.world1 = (Returns m, w') ∧
    length (filter (λ k', k' = 1) (PyDict.keys m)) = 1%nat ∧
    PyDict.get 1 m = Some (1.5, -0.25)%float.
Proof.
  assert (engine_detects Stub.world1 1%positive 4%positive
            (Some ([Stub.left_hand] ++ Stub.right_hand :: []))) as Hdet
    by (apply (stub_detects _ 3%nat); reflexivity).
  split; [exact Hdet|].
  apply (fetch_landmarks_last_hand_wins Stub.world1 1%positive 4%positive
           [Stub.left_hand] Stub.right_hand [] 1
           (Stub.lm 1.5 (-0.25) 0.5) Hdet).
  - apply Exists_cons_hd. vm_compute. eauto.
  - reflexivity.
  - apply Forall_nil_2.
Defined.

Lemma fetch_landmark_position_is_get_witness :
  ∃ m w',
    fetch_landmarks 1%positive 4%positive Stub.world1 = (Returns m, w') ∧
    (fetch_landmark_position 1%positive 4%positive 1 Stub.world1
     = (Returns (PyDict.get 1 m), w') ∧
     PyDict.get 1 m = Some (1.5, -0.25)%float) ∧
    (fetch_landmark_position 1%positive 4%positive 7 Stub.world1
     = (Returns (PyDict.get 7 m), w') ∧
     PyDict.get 7 m = None).
Proof.
  assert (fetch_landmarks 1%positive 4%positive Stub.world1
          = (Returns [(0, (0.125, 1)%float); (1, (1.5, -0.25)%float);
                      (2, (0.5, 0.25)%float)],
             (fetch_landmarks 1%positive 4%positive Stub.world1).2)) as Hf
    by reflexivity.
  eexists _, _. split; [exact Hf|]. split.
  - split; [|reflexivity].
    exact (proj1 (proj2 (fetch_landmark_position_is_get
                           Stub.world1 1%positive 4%positive 1)
                    _ _ Hf)).
  - destruct (proj2 (fetch_landmark_position_is_get
                       Stub.world1 1%positive 4%positive 7)
                _ _ Hf) as (Hpos & _ & Habsent).
    split; [exact Hpos|]. apply Habsent.
    change (7 ∉ [0; 1; 2]). rewrite !not_elem_of_cons.
    split_and!; [lia..|apply not_elem_of_nil].
Defined.

(** C3, as the claim states it, fails: on a frame where the engine detects
    exactly one hand, with two landmarks of which one lies outside the
    image, the map that [fetch_landmarks] returns has the coordinates 1.5 and
    -0.25, which are not in [[0.0, 1.0]]. *)
Lemma one_hand_coordinates_out_of_range :
  engine_detects Stub.world1 1%positive 6%positive (Some [Stub.right_hand]) ∧
  ∃ m w',
    fetch_landmarks 1%positive 6%positive Stub.world1 = (Returns m, w') ∧
    m = [(0, (0.125, 1)%float); (1, (1.5, -0.25)%float)] ∧
    in_unit_interval 1.5 = false ∧
    in_unit_interval (-0.25) = false ∧
    ¬ Forall normalized (PyDict.values m).
Proof.
  split; [apply (stub_detects _ 5%nat); reflexivity|].
  eexists _, _. split_and!; [reflexivity..|].
  intros Hall. apply Forall_cons in Hall as [_ Hall].
  apply Forall_cons in Hall as [[Hx _] _]. vm_compute in Hx. discriminate.
Qed.

Lemma fetch_landmarks_one_hand_witness :
  engine_detects Stub.world1 1%positive 3%positive (Some [Stub.left_hand]) ∧
  ∃ m w',
    fetch_landmarks 1%positive 3%positive Stub.world1 = (Returns m, w') ∧
    PyDict.len m = 3 ∧
    PyDict.keys m = seqZ 0 3 ∧
    PyDict.values m = [(0.25, 0.5); (0.75, 0.5); (0.5, 0.25)]%float ∧
    (Forall normalized (PyDict.values m)
     ↔ Forall (λ lm, normalized (x lm, y lm)) (landmark Stub.left_hand)).
Proof.
  assert (engine_detects Stub.world1 1%positive 3%positive
            (Some [Stub.left_hand])) as Hdet
    by (apply (stub_detects _ 2%nat); reflexivity).
  split; [exact Hdet|].
  exact (fetch_landmarks_one_hand Stub.world1 1%positive 3%positive
           Stub.left_hand Hdet).
Defined.

Lemma fetch_landmarks_no_hands_witness :
  (engine_detects Stub.world1 1%positive 1%positive None ∧
   ∃ w', fetch_landmarks 1%positive 1%positive Stub.world1
         = (Returns PyDict.empty, w')) ∧
  (engine_detects Stub.world1 1%positive 2%positive (Some []) ∧
   ∃ w', fetch_landmarks 1%positive 2%positive Stub.world1
         = (Returns PyDict.empty, w')).
Proof.
  assert (engine_detects Stub.world1 1%positive 1%positive None) as Hnone
    by (apply (stub_detects _ 0%nat); reflexivity).
  assert (engine_detects Stub.world1 1%positive 2%positive (Some [])) as Hnil
    by (apply (stub_detects _ 1%nat); reflexivity).
  split; (split; [assumption|]).
  - exact (fetch_landmarks_no_hands Stub.world1 1%positive 1%positive None
             Hnone (or_introl eq_refl)).
  - exact (fetch_landmarks_no_hands Stub.world1 1%positive 2%positive (Some [])
             Hnil (or_intror eq_refl)).
Defined.

Lemma fetch_landmarks_twice_witness :
  new_LandmarkDetector 2 0.5%float 0.5%float Stub.world0
  = (Returns 1%positive, Stub.world1) ∧
  (fetch_landmarks 1%positive 4%positive Stub.world1).1
  = (fetch_landmarks 1%positive 4%positive
       (fetch_landmarks 1%positive 4%positive Stub.world1).2).1 ∧
  (fetch_landmarks 1%positive 4%positive Stub.world1).1
  = Returns [(0, (0.125, 1)%float); (1, (1.5, -0.25)%float);
             (2, (0.5, 0.25)%float)].
Proof.
  assert (new_LandmarkDetector 2 0.5%float 0.5%float Stub.world0
          = (Returns 1%positive, Stub.world1)) as Hnew by reflexivity.
  split; [exact Hnew|]. split; [|reflexivity].
  exact (proj1 (fetch_landmarks_twice Stub.world0 1%positive Stub.world1
                  4%positive _ _ _ _ stub_deterministic Hnew
                  (surjective_pairing _) (surjective_pairing _))).
Defined.

Lemma fetch_landmarks_insertion_order_witness :
  engine_detects Stub.world1 1%positive 5%positive
    (Some [Stub.right_hand; Stub.left_hand]) ∧
  first_occurrences (concat (hand_ids <$> [Stub.right_hand; Stub.left_hand]))
  = [0; 1; 2] ∧
  ∃ m w',
    fetch_landmarks 1%positive 5%positive Stub.world1 = (Returns m, w') ∧
    PyDict.keys m = [0; 1; 2] ∧
    m = [(0, (0.25, 0.5)%float); (1, (0.75, 0.5)%float);
         (2, (0.5, 0.25)%float)].
Proof.
  assert (engine_detects Stub.world1 1%positive 5%positive
            (Some [Stub.right_hand; Stub.left_hand])) as Hdet
    by (apply (stub_detects _ 4%nat); reflexivity).
  split; [exact Hdet|]. split; [reflexivity|].
  destruct (fetch_landmarks_insertion_order _ _ _ _ Hdet)
    as (m & w' & Hfetch & Hkeys & _).
  exists m, w'. split; [exact Hfetch|]. split; [exact Hkeys|].
  vm_compute in Hfetch. by injection Hfetch as <- _.
Defined.

Lemma engine_errors_propagate_witness :
  new_LandmarkDetector 0 0.5%float 2%float Stub.world1
  = (Raises Stub.ConfigError, Stub.world1) ∧
  engine_run Stub.world1 1%positive 7%positive (inl Stub.FrameError) 1%nat ∧
  ∃ w',
    fetch_landmarks 1%positive 7%positive Stub.world1
    = (Raises Stub.FrameError, w') ∧
    fetch_landmark_position 1%positive 7%positive 0 Stub.world1
    = (Raises Stub.FrameError, w') ∧
    engines w' !! 1%positive = Some 1%nat.
Proof.
  assert (engine_run Stub.world1 1%positive 7%positive
            (inl Stub.FrameError) 1%nat) as Hrun.
  { exists (mkLandmarkDetector 1%positive), 0%nat, 6%nat.
    split_and!; reflexivity. }
  destruct (engine_errors_propagate Stub.world1 1%positive 7%positive 0
              0 0.5%float 2%float) as (_ & Hnew & Hfetch).
  split; [exact (Hnew Stub.ConfigError eq_refl)|]. split; [exact Hrun|].
  destruct (Hfetch _ _ Hrun) as (w' & H1 & H2 & H3).
  exists w'. split_and!; [exact H1|exact H2|].
  exact (H3 (mkLandmarkDetector 1%positive) eq_refl).
Defined.

Lemma fetch_landmarks_keys_range_witness :
  engine_detects Stub.world1 1%positive 4%positive
    (Some [Stub.left_hand; Stub.right_hand]) ∧
  max_num_landmarks [Stub.left_hand; Stub.right_hand] = 3 ∧
  ∃ m w',
    fetch_landmarks 1%positive 4%positive Stub.world1 = (Returns m, w') ∧
    PyDict.keys m = seqZ 0 3 ∧
    (∀ k, k ∈ PyDict.keys m ↔ 0 ≤ k < 3) ∧
    PyDict.len m = 3.
Proof.
  assert (engine_detects Stub.world1 1%positive 4%positive
            (Some [Stub.left_hand; Stub.right_hand])) as Hdet
    by (apply (stub_detects _ 3%nat); reflexivity).
  split; [exact Hdet|]. split; [reflexivity|].
  exact (fetch_landmarks_keys_range Stub.world1 1%positive 4%positive
           [Stub.left_hand; Stub.right_hand] Hdet).
Defined.

Lemma fetch_landmarks_verbatim_witness :
  engine_detects Stub.world1 1%positive 6%positive (Some [Stub.right_hand]) ∧
  ∃ m w',
    fetch_landmarks 1%positive 6%positive Stub.world1 = (Returns m, w') ∧
    PyDict.get 1 m = Some (1.5, -0.25)%float ∧
    build_landmark_map
      (mkProcessResults
         (Some [mkNormalizedLandmarkList
                  [Stub.lm 0.125 1 7; Stub.lm 1.5 (-0.25) 9]%float]))
    = m.
Proof.
  assert (engine_detects Stub.world1 1%positive 6%positive
            (Some [Stub.right_hand])) as Hdet
    by (apply (stub_detects _ 5%nat); reflexivity).
  split; [exact Hdet|].
  destruct (fetch_landmarks_verbatim _ _ _ _ Hdet)
    as (m & w' & Hfetch & Hget & Hsame).
  exists m, w'. split; [exact Hfetch|]. split.
  - rewrite Hget. reflexivity.
  - apply Hsame. simpl. constructor; [reflexivity|constructor].
Defined.

(** * Further properties of the wrapper *)

(** Two dictionaries with the same keys, in the same order and without
    repetition, and the same value under every key, are equal. *)
Lemma dict_ext {V : Type} (d1 d2 : PyDict.dict V) :
  NoDup (PyDict.keys d1) →
  PyDict.keys d1 = PyDict.keys d2 →
  (∀ k, PyDict.get k d1 = PyDict.get k d2) →
  d1 = d2.
Proof.
  revert d2. unfold PyDict.keys.
  induction d1 as [|[k1 v1] d1 IH]; intros [|[k2 v2] d2] Hnd Hkeys Hget;
    try done.
  rewrite !fmap_cons in Hkeys. simpl in Hkeys. injection Hkeys as -> Hkeys.
  apply NoDup_cons in Hnd as [Hk2 Hnd].
  pose proof (Hget k2) as Hhead. simpl in Hhead.
  rewrite !decide_True in Hhead by done. injection Hhead as ->.
  f_equal. apply IH; [done|done|]. intros k.
  destruct (decide (k2 = k)) as [<-|Hne].
  - transitivity (@None V); [|symmetry]; apply get_None_keys; unfold PyDict.keys;
      [done|by rewrite <-Hkeys].
  - specialize (Hget k). simpl in Hget. by rewrite !decide_False in Hget by done.
Qed.

Lemma max_num_landmarks_snoc pre h :
  Forall (λ h', num_landmarks h' ≤ num_landmarks h) pre →
  max_num_landmarks (pre ++ [h]) = num_landmarks h.
Proof.
  unfold max_num_landmarks, num_landmarks.
  induction 1 as [|h' pre Hh' _ IH]; simpl; lia.
Qed.

Lemma landmark_with_id_shorter h h' k :
  num_landmarks h' ≤ num_landmarks h →
  landmark_with_id h k = None → landmark_with_id h' k = None.
Proof.
  unfold landmark_with_id, num_landmarks. intros Hle.
  case_decide; [|done]. rewrite !lookup_ge_None. lia.
Qed.

Section wrapper_more.
Context {Frame EngineState EngineError : Type}.
Context `{!HandsEngine Frame EngineState EngineError}.
Implicit Types (w : World Frame EngineState) (self rgb_frame : addr).

Lemma fetch_landmarks_run_outcome w self rgb_frame r st' :
  engine_run w self rgb_frame r st' →
  ∃ w', fetch_landmarks self rgb_frame w = (fetch_outcome r, w') ∧
        frames w' = frames w ∧
        detectors w' = detectors w ∧
        ∀ d, detectors w !! self = Some d →
             engines w' = <[hand_processor d := st']> (engines w).
Proof.
  intros (d & st & fr & Hd & Hst & Hfr & Hp). eexists. split_and!.
  - by rewrite (fetch_landmarks_run _ _ _ _ _ _ _ _ Hd Hst Hfr Hp).
  - done.
  - done.
  - intros d' Hd'. by simplify_eq.
Qed.

Lemma fetch_landmarks_other_engines w self rgb_frame (a : addr) :
  (∀ d, detectors w !! self = Some d → a ≠ hand_processor d) →
  engines (fetch_landmarks self rgb_frame w).2 !! a = engines w !! a.
Proof.
  intros Ha.
  unfold fetch_landmarks, bind, getattr_hand_processor, call_process, ret.
  destruct (detectors w !! self) as [d|] eqn:Hd; simpl; [|done].
  destruct (engines w !! hand_processor d) as [st|]; simpl; [|done].
  destruct (frames w !! rgb_frame) as [fr|]; simpl; [|done].
  destruct (process st fr) as [[e|res] st']; simpl.
  all: apply lookup_insert_ne; intros Heq; by apply (Ha d).
Qed.
Lemma new_LandmarkDetector_store w max_num_hands min_detection_confidence
    min_tracking_confidence self w' :
  new_LandmarkDetector max_num_hands min_detection_confidence
                       min_tracking_confidence w = (Returns self, w') →
  detectors w !! self = None ∧
  frames w' = frames w ∧
  (∀ s d, detectors w !! s = Some d → detectors w' !! s = Some d) ∧
  (∀ a st, engines w !! a = Some st → engines w' !! a = Some st) ∧
  ∃ d st,
    detectors w' !! self = Some d ∧
    engines w !! hand_processor d = None ∧
    Hands max_num_hands min_detection_confidence min_tracking_confidence
    = inr st ∧
    engines w' !! hand_processor d = Some st.
Proof.
  rewrite new_LandmarkDetector_unfold.
  destruct (Hands _ _ _) as [e|st]; [done|]. intros [= <- <-].
  pose proof (is_fresh (dom (detectors w))) as Hself.
  pose proof (is_fresh (dom (engines w))) as Hengine.
  apply not_elem_of_dom in Hself, Hengine. simpl. split_and!.
  - done.
  - done.
  - intros s d Hs. rewrite lookup_insert_ne; [done|]. congruence.
  - intros a st' Ha. rewrite lookup_insert_ne; [done|]. congruence.
  - eexists _, st. split_and!; [apply lookup_insert_eq|done|done|].
    simpl. apply lookup_insert_eq.
Qed.
End wrapper_more.

Section extras.
Context {Frame EngineState EngineError : Type}.
Context `{!HandsEngine Frame EngineState EngineError}.
Implicit Types (w : World Frame EngineState) (self rgb_frame : addr).

(** X1. When the engine answers with the hands [hands] (or [None]),
    [fetch_landmark_position] returns a position exactly for the ids from 0
    up to, and without, the largest number of landmarks of a hand; for every
    other integer, the negative ones too, it returns [None]. *)
Theorem fetch_landmark_position_bounds w self rgb_frame hands landmark_id :
  engine_detects w self rgb_frame hands →
  ∃ o w',
    fetch_landmark_position self rgb_frame landmark_id w = (Returns o, w') ∧
    (is_Some o ↔ 0 ≤ landmark_id < max_num_landmarks (default [] hands)).
Proof.
  intros Hdet.
  destruct (fetch_landmarks_detects _ _ _ _ Hdet) as [w' Hfetch].
  eexists _, w'. split.
  - by rewrite fetch_landmark_position_unfold, Hfetch.
  - rewrite get_is_Some_keys, keys_build_landmark_map, elem_of_seqZ. lia.
Qed.

(** X2. When no earlier hand has more landmarks than the last one, as with
    an engine that gives every hand the same number of landmarks, the map
    that [fetch_landmarks] returns is the map of the last hand alone: every
    entry of the earlier hands is overwritten. *)
Theorem fetch_landmarks_last_hand_alone w self rgb_frame pre h :
  engine_detects w self rgb_frame (Some (pre ++ [h])) →
  Forall (λ h', num_landmarks h' ≤ num_landmarks h) pre →
  ∃ m w',
    fetch_landmarks self rgb_frame w = (Returns m, w') ∧
    m = build_landmark_map (mkProcessResults (Some [h])) ∧
    m = prod_map id (λ lm, (x lm, y lm)) <$> enumerate (landmark h).
Proof.
  intros Hdet Hpre.
  destruct (fetch_landmarks_detects _ _ _ _ Hdet) as [w' Hfetch].
  eexists _, w'. split; [exact Hfetch|].
  assert (build_landmark_map (mkProcessResults (Some (pre ++ [h])))
          = build_landmark_map (mkProcessResults (Some [h]))) as ->.
  { apply dict_ext.
    - rewrite keys_build_landmark_map. apply NoDup_seqZ.
    - rewrite !keys_build_landmark_map. simpl default.
      rewrite (max_num_landmarks_snoc _ _ Hpre). f_equal.
      unfold max_num_landmarks, num_landmarks. simpl. lia.
    - intros k. rewrite !get_build_landmark_map. simpl default.
      rewrite last_landmark_with_id_app. simpl.
      destruct (landmark_with_id h k) as [lm|] eqn:Hk; [done|].
      rewrite last_landmark_with_id_None; [done|].
      eapply Forall_impl; [exact Hpre|]. intros h' Hh'. simpl.
      by apply (landmark_with_id_shorter h). }
  split; [done|].
  rewrite build_landmark_map_hands. simpl default.
  rewrite for_hand_landmarks_cons. apply for_landmark_empty.
Qed.

(** X3. A constructor call that returns gives a new detector object with a
    new engine object, in the state the engine's constructor gave; it leaves
    every frame, every earlier detector and every earlier engine as it was. *)
Theorem new_LandmarkDetector_fresh w max_num_hands min_detection_confidence
    min_tracking_confidence self w' :
  new_LandmarkDetector max_num_hands min_detection_confidence
                       min_tracking_confidence w = (Returns self, w') →
  detectors w !! self = None ∧
  frames w' = frames w ∧
  (∀ s d, detectors w !! s = Some d → detectors w' !! s = Some d) ∧
  (∀ a st, engines w !! a = Some st → engines w' !! a = Some st) ∧
  ∃ d st,
    detectors w' !! self = Some d ∧
    engines w !! hand_processor d = None ∧
    Hands max_num_hands min_detection_confidence min_tracking_confidence
    = inr st ∧
    engines w' !! hand_processor d = Some st.
Proof. apply new_LandmarkDetector_store. Qed.

(** X4. Two detectors made one after the other are different objects with
    different engines, and a call of [fetch_landmarks] on the first leaves
    the engine of the second in the state it had. *)
Theorem detectors_do_not_interfere w0 n1 c1 t1 s1 w1 n2 c2 t2 s2 w2
    rgb_frame :
  new_LandmarkDetector n1 c1 t1 w0 = (Returns s1, w1) →
  new_LandmarkDetector n2 c2 t2 w1 = (Returns s2, w2) →
  s1 ≠ s2 ∧
  ∃ d1 d2,
    detectors w2 !! s1 = Some d1 ∧
    detectors w2 !! s2 = Some d2 ∧
    hand_processor d1 ≠ hand_processor d2 ∧
    engines (fetch_landmarks s1 rgb_frame w2).2 !! hand_processor d2
    = engines w2 !! hand_processor d2.
Proof.
  intros H1 H2.
  destruct (new_LandmarkDetector_store _ _ _ _ _ _ H1)
    as (_ & _ & _ & _ & d1 & st1 & Hd1 & _ & _ & He1).
  destruct (new_LandmarkDetector_store _ _ _ _ _ _ H2)
    as (Hs2 & _ & Hkeep & _ & d2 & st2 & Hd2 & Hnew2 & _ & He2).
  assert (hand_processor d1 ≠ hand_processor d2) as Hne by congruence.
  split; [congruence|]. exists d1, d2. split_and!; [by apply Hkeep|done..|].
  apply fetch_landmarks_other_engines. intros d Hd.
  rewrite (Hkeep _ _ Hd1) in Hd. congruence.
Qed.

(** X5. An exception of the engine ends the current call only: the detector
    and its engine stay in the store, and the next call of [fetch_landmarks]
    runs [process] on the state that the failed call left. *)
Theorem fetch_landmarks_after_error w self rgb_frame e st1 rgb_frame2 fr2
    r2 st2 :
  engine_run w self rgb_frame (inl e) st1 →
  frames w !! rgb_frame2 = Some fr2 →
  process st1 fr2 = (r2, st2) →
  ∃ w1 w2,
    fetch_landmarks self rgb_frame w = (Raises e, w1) ∧
    fetch_landmarks self rgb_frame2 w1 = (fetch_outcome r2, w2) ∧
    ∀ d, detectors w !! self = Some d →
         engines w2 !! hand_processor d = Some st2.
Proof.
  intros Hrun Hfr2 Hp2.
  destruct (fetch_landmarks_run_outcome _ _ _ _ _ Hrun)
    as (w1 & Hfetch1 & Hframes & Hdets & Hengines).
  destruct Hrun as (d & st & fr & Hd & Hst & Hfr & Hp).
  assert (engine_run w1 self rgb_frame2 r2 st2) as Hrun2.
  { exists d, st1, fr2. rewrite Hframes, Hdets, (Hengines d Hd).
    split_and!; [done|apply lookup_insert_eq|done|done]. }
  destruct (fetch_landmarks_run_outcome _ _ _ _ _ Hrun2)
    as (w2 & Hfetch2 & _ & _ & Hengines2).
  exists w1, w2. split_and!; [done|done|].
  intros d' Hd'. rewrite (Hengines2 d') by by rewrite Hdets.
  apply lookup_insert_eq.
Qed.

(** X6. Every call of [fetch_landmark_position] runs the engine anew: of two
    successive calls on a frame, the second reads the map built from what
    [process] answers in the state that the first call left, which need not
    be the map the first call read. *)
Theorem fetch_landmark_position_runs_engine w self rgb_frame d st fr
    res1 st1 r2 st2 k1 k2 :
  detectors w !! self = Some d →
  engines w !! hand_processor d = Some st →
  frames w !! rgb_frame = Some fr →
  process st fr = (inr res1, st1) →
  process st1 fr = (r2, st2) →
  ∃ w1 w2,
    fetch_landmark_position self rgb_frame k1 w
    = (Returns (PyDict.get k1 (build_landmark_map res1)), w1) ∧
    fetch_landmark_position self rgb_frame k2 w1
    = (outcome_map (PyDict.get k2) (fetch_outcome r2), w2) ∧
    engines w2 !! hand_processor d = Some st2.
Proof.
  intros Hd Hst Hfr Hp1 Hp2.
  pose proof (fetch_landmarks_run _ _ _ _ _ _ _ _ Hd Hst Hfr Hp1) as Hf1.
  eexists _, _. split_and!.
  - by rewrite fetch_landmark_position_unfold, Hf1.
  - rewrite fetch_landmark_position_unfold.
    erewrite fetch_landmarks_run;
      [|exact Hd|by apply lookup_insert_eq|exact Hfr|exact Hp2].
    unfold fetch_outcome. reflexivity.
  - simpl. apply lookup_insert_eq.
Qed.

(** X7. With an engine whose answer depends on the frame only, the positions
    that successive calls of [fetch_landmark_position] return for a frame
    are those of one and the same map, the one [fetch_landmarks] returns for
    this frame. *)
Theorem fetch_landmark_position_consistent w self rgb_frame m w' k1 k2 :
  deterministic_engine →
  fetch_landmarks self rgb_frame w = (Returns m, w') →
  ∃ w1 w2,
    fetch_landmark_position self rgb_frame k1 w
    = (Returns (PyDict.get k1 m), w1) ∧
    fetch_landmark_position self rgb_frame k2 w1
    = (Returns (PyDict.get k2 m), w2).
Proof.
  intros Hdet Hfetch.
  pose proof (fetch_landmarks_again w self rgb_frame Hdet) as Hag.
  rewrite Hfetch in Hag. simpl in Hag.
  exists w', (fetch_landmarks self rgb_frame w').2. split.
  - by rewrite fetch_landmark_position_unfold, Hfetch.
  - by rewrite fetch_landmark_position_unfold, Hag.
Qed.

(** X8. The first call of [fetch_landmarks] on a detector that the
    constructor returned, on a frame of the store, runs [process] on the
    state that the engine's constructor gave, and ends as that call of
    [process] does. *)
Theorem construct_then_fetch w max_num_hands min_detection_confidence
    min_tracking_confidence self w1 rgb_frame fr :
  new_LandmarkDetector max_num_hands min_detection_confidence
                       min_tracking_confidence w = (Returns self, w1) →
  frames w !! rgb_frame = Some fr →
  ∃ st w2,
    Hands max_num_hands min_detection_confidence min_tracking_confidence
    = inr st ∧
    fetch_landmarks self rgb_frame w1
    = (fetch_outcome (process st fr).1, w2).
Proof.
  intros Hnew Hfr.
  destruct (new_LandmarkDetector_store _ _ _ _ _ _ Hnew)
    as (_ & Hframes & _ & _ & d & st & Hd & _ & Hst & He).
  exists st. destruct (process st fr) as [r st'] eqn:Hp.
  destruct (fetch_landmarks_run_outcome w1 self rgb_frame r st')
    as (w2 & Hfetch & _).
  { exists d, st, fr. by rewrite Hframes. }
  by exists w2.
Qed.
End extras.

(** ** The further properties on the stub engines *)

Lemma fetch_landmark_position_bounds_witness :
  engine_detects Stub.world1 1%positive 4%positive
    (Some [Stub.left_hand; Stub.right_hand]) ∧
  (∃ o w',
     fetch_landmark_position 1%positive 4%positive 2 Stub.world1
     = (Returns o, w') ∧
     (is_Some o
      ↔ 0 ≤ 2 < max_num_landmarks
                  (default [] (Some [Stub.left_hand; Stub.right_hand])))) ∧
  (∃ o w',
     fetch_landmark_position 1%positive 4%positive (-1) Stub.world1
     = (Returns o, w') ∧
     (is_Some o
      ↔ 0 ≤ -1 < max_num_landmarks
                   (default [] (Some [Stub.left_hand; Stub.right_hand])))).
Proof.
  assert (engine_detects Stub.world1 1%positive 4%positive
            (Some [Stub.left_hand; Stub.right_hand])) as Hdet
    by (apply (stub_detects _ 3%nat); reflexivity).
  split; [exact Hdet|]. split.
  - exact (fetch_landmark_position_bounds _ _ _ _ 2 Hdet).
  - exact (fetch_landmark_position_bounds _ _ _ _ (-1) Hdet).
Defined.

Lemma fetch_landmarks_last_hand_alone_witness :
  engine_detects Stub.world1 1%positive 5%positive
    (Some ([Stub.right_hand] ++ [Stub.left_hand])) ∧
  Forall (λ h', num_landmarks h' ≤ num_landmarks Stub.left_hand)
         [Stub.right_hand] ∧
  ∃ m w',
    fetch_landmarks 1%positive 5%positive Stub.world1 = (Returns m, w') ∧
    m = build_landmark_map (mkProcessResults (Some [Stub.left_hand])) ∧
    m = prod_map id (λ lm, (x lm, y lm))
          <$> enumerate (landmark Stub.left_hand).
Proof.
  assert (engine_detects Stub.world1 1%positive 5%positive
            (Some ([Stub.right_hand] ++ [Stub.left_hand]))) as Hdet
    by (apply (stub_detects _ 4%nat); reflexivity).
  assert (Forall (λ h', num_landmarks h' ≤ num_landmarks Stub.left_hand)
                 [Stub.right_hand]) as Hle
    by (apply Forall_singleton; vm_compute; discriminate).
  split; [exact Hdet|]. split; [exact Hle|].
  exact (fetch_landmarks_last_hand_alone _ _ _ _ _ Hdet Hle).
Defined.

Lemma new_LandmarkDetector_fresh_witness :
  new_LandmarkDetector 2 0.5%float 0.5%float Stub.world0
  = (Returns 1%positive, Stub.world1) ∧
  detectors Stub.world0 !! 1%positive = None ∧
  frames Stub.world1 = frames Stub.world0.
Proof.
  assert (new_LandmarkDetector 2 0.5%float 0.5%float Stub.world0
          = (Returns 1%positive, Stub.world1)) as Hnew by reflexivity.
  split; [exact Hnew|].
  destruct (new_LandmarkDetector_fresh _ _ _ _ _ _ Hnew)
    as (Hself & Hframes & _).
  split; [exact Hself|exact Hframes].
Defined.

Lemma detectors_do_not_interfere_witness :
  new_LandmarkDetector 2 0.5%float 0.5%float Stub.world0
  = (Returns 1%positive, Stub.world1) ∧
  new_LandmarkDetector 1 1%float 0%float Stub.world1
  = (Returns 2%positive,
     (new_LandmarkDetector 1 1%float 0%float Stub.world1).2) ∧
  1%positive ≠ 2%positive.
Proof.
  assert (new_LandmarkDetector 2 0.5%float 0.5%float Stub.world0
          = (Returns 1%positive, Stub.world1)) as H1 by reflexivity.
  assert (new_LandmarkDetector 1 1%float 0%float Stub.world1
          = (Returns 2%positive,
             (new_LandmarkDetector 1 1%float 0%float Stub.world1).2)) as H2
    by reflexivity.
  split; [exact H1|]. split; [exact H2|].
  exact (proj1 (detectors_do_not_interfere _ _ _ _ _ _ _ _ _ _ _
                  4%positive H1 H2)).
Defined.

Lemma fetch_landmarks_after_error_witness :
  engine_run Stub.world1 1%positive 7%positive (inl Stub.FrameError) 1%nat ∧
  ∃ w1 w2,
    fetch_landmarks 1%positive 7%positive Stub.world1
    = (Raises Stub.FrameError, w1) ∧
    fetch_landmarks 1%positive 3%positive w1
    = (fetch_outcome (Stub.answer 2), w2) ∧
    ∀ d, detectors Stub.world1 !! 1%positive = Some d →
         engines w2 !! hand_processor d = Some 2%nat.
Proof.
  assert (engine_run Stub.world1 1%positive 7%positive
            (inl Stub.FrameError) 1%nat) as Hrun.
  { exists (mkLandmarkDetector 1%positive), 0%nat, 6%nat.
    split_and!; reflexivity. }
  split; [exact Hrun|].
  exact (fetch_landmarks_after_error Stub.world1 1%positive 7%positive
           Stub.FrameError 1%nat 3%positive 2%nat (Stub.answer 2) 2%nat
           Hrun eq_refl eq_refl).
Defined.

Lemma fetch_landmark_position_runs_engine_witness :
  ∃ w1 w2,
    @fetch_landmark_position nat nat Stub.error tracking_engine
      1%positive 3%positive 1 Stub.world1
    = (Returns (Some (0.75, 0.5)%float), w1) ∧
    @fetch_landmark_position nat nat Stub.error tracking_engine
      1%positive 3%positive 1 w1
    = (Returns (Some (1.5, -0.25)%float), w2) ∧
    engines w2 !! 1%positive = Some 2%nat.
Proof.
  exact (@fetch_landmark_position_runs_engine nat nat Stub.error
           tracking_engine Stub.world1 1%positive 3%positive
           (mkLandmarkDetector 1%positive) 0%nat 2%nat
           (mkProcessResults (Some [Stub.left_hand])) 1%nat
           (inr (mkProcessResults (Some [Stub.right_hand]))) 2%nat 1 1
           eq_refl eq_refl eq_refl eq_refl eq_refl).
Defined.

Lemma fetch_landmark_position_consistent_witness :
  ∃ w1 w2,
    fetch_landmark_position 1%positive 4%positive 0 Stub.world1
    = (Returns (Some (0.125, 1)%float), w1) ∧
    fetch_landmark_position 1%positive 4%positive 2 w1
    = (Returns (Some (0.5, 0.25)%float), w2).
Proof.
  exact (fetch_landmark_position_consistent Stub.world1 1%positive 4%positive
           [(0, (0.125, 1)%float); (1, (1.5, -0.25)%float);
            (2, (0.5, 0.25)%float)]
           (fetch_landmarks 1%positive 4%positive Stub.world1).2 0 2
           stub_deterministic eq_refl).
Defined.

Lemma construct_then_fetch_witness :
  new_LandmarkDetector 2 0.5%float 0.5%float Stub.world0
  = (Returns 1%positive, Stub.world1) ∧
  ∃ st w2,
    Hands 2 0.5%float 0.5%float = inr st ∧
    fetch_landmarks 1%positive 4%positive Stub.world1
    = (fetch_outcome (process st 3%nat).1, w2).
Proof.
  assert (new_LandmarkDetector 2 0.5%float 0.5%float Stub.world0
          = (Returns 1%positive, Stub.world1)) as Hnew by reflexivity.
  split; [exact Hnew|].
  exact (construct_then_fetch Stub.world0 2 0.5%float 0.5%float 1%positive
           Stub.world1 4%positive 3%nat Hnew eq_refl).
Defined.
